(** * AngelOne MCP server ([main.py]): a shallow embedding and its contract

    The server is a thin shim over two external libraries, the SmartApi
    broker SDK ([SmartConnect]) and [pyotp].  Their behaviour is not part
    of the repository, so it enters the development as an oracle [sdk]
    (a [Variable] of the section below) that answers every external call
    from an abstract external state.  Everything the repository itself
    does (building requests, ordering the calls, logging, catching and
    re-raising) is translated from the source, function by function. *)

From Stdlib Require Import ZArith Lia.
From stdpp Require Import base option list strings gmap fin_maps.

Local Open Scope string_scope.
Local Open Scope Z_scope.
Local Open Scope list_scope.

(** ** Python values

    The JSON-like values that flow through the tools: arguments, request
    dictionaries and SDK responses.  A [float] is kept as its IEEE-754
    binary64 bit pattern; the code never computes with one. *)

#[local] Set Warnings "-register-all".
Inductive value : Type :=
| VNone
| VBool (b : bool)
| VInt (n : Z)
| VFloat (bits : Z)
| VStr (s : string)
| VList (l : list value)
| VDict (d : gmap string value).
#[local] Set Warnings "+register-all".

(** A dict display [{k1: v1, ..., kn: vn}]: the items are stored from left
    to right, a later duplicate key replaces an earlier one. *)
Definition dict_display (items : list (string * value)) : gmap string value :=
  foldl (fun d kv => <[kv.1 := kv.2]> d) ∅ items.

(** Bit patterns of the floats that compare equal to a [bool]. *)
Definition float_pos_zero : Z := 0.
Definition float_neg_zero : Z := 2 ^ 63.
Definition float_one : Z := 4607182418800017408.

(** [v == b] for a bool [b].  [bool] is a subclass of [int], so the
    comparison is numeric: [0 == False] and [0.0 == False] hold, while
    [None], strings and containers are never equal to a bool. *)
Definition py_eq_bool (v : value) (b : bool) : bool :=
  match v with
  | VBool c => Bool.eqb c b
  | VInt n => n =? (if b then 1 else 0)
  | VFloat f =>
      if b then f =? float_one
      else (f =? float_pos_zero) || (f =? float_neg_zero)
  | VNone | VStr _ | VList _ | VDict _ => false
  end.

(** ** Exceptions and outcomes *)

(** A raised object: its class name, [str(e)], and whether it is an
    instance of [Exception] (what [except Exception] catches) rather than
    of [BaseException] only ([KeyboardInterrupt], [SystemExit], ...). *)
Record exn : Type := Exn {
  exn_class : string;
  exn_str : string;
  exn_is_Exception : bool
}.

(** [Exception(msg)]. *)
Definition Exception (msg : string) : exn := Exn "Exception" msg true.
Definition KeyError (key : string) : exn :=
  Exn "KeyError" ("'" +:+ key +:+ "'") true.
Definition TypeError (msg : string) : exn := Exn "TypeError" msg true.

Inductive outcome (A : Type) : Type :=
| Returned (a : A)
| Raised (e : exn).
Arguments Returned {A} a.
Arguments Raised {A} e.

Definition type_name (v : value) : string :=
  match v with
  | VNone => "NoneType"
  | VBool _ => "bool"
  | VInt _ => "int"
  | VFloat _ => "float"
  | VStr _ => "str"
  | VList _ => "list"
  | VDict _ => "dict"
  end.

(** [v[key]] for a string key: only a dict can answer; a missing key is a
    [KeyError], every other type a [TypeError]. *)
Definition py_getitem (v : value) (key : string) : outcome value :=
  match v with
  | VDict d =>
      match d !! key with
      | Some x => Returned x
      | None => Raised (KeyError key)
      end
  | VStr _ => Raised (TypeError "string indices must be integers, not 'str'")
  | VList _ =>
      Raised (TypeError "list indices must be integers or slices, not str")
  | VNone | VBool _ | VInt _ | VFloat _ =>
      Raised (TypeError ("'" +:+ type_name v +:+ "' object is not subscriptable"))
  end.

(** ** External calls, log records and the world *)

(** The calls the module makes into [SmartApi] and [pyotp].  [self] is the
    identity of the receiving object. *)
Inductive call : Type :=
| SmartConnect (self : nat) (key : value)
| TOTP (self : nat) (s : value)
| TOTP_now (self : nat)
| generateSession (self : nat) (clientCode password totp : value)
| holding (self : nat)
| getCandleData (self : nat) (historicDataParams : value)
| placeOrderFullResponse (self : nat) (orderparams : value)
| cancelOrder (self : nat) (order_id variety : value)
| orderBook (self : nat).

(** What the process does that is visible outside the module. *)
Inductive event : Type :=
| EnvGet (key : string)
| Call (c : call).

(** What is handed to the logger: a formatted string or a value. *)
Inductive log_msg : Type :=
| MsgStr (s : string)
| MsgVal (v : value).

(** A record at level ERROR.  [exc_info] is the exception attached by
    [logger.exception]; [logger.error] attaches none. *)
Record log_record : Type := LogError {
  log_message : log_msg;
  exc_info : option exn
}.

(** The names bound at module level by the five [os.environ.get] lines. *)
Record globals : Type := Globals {
  api_key : value;
  username : value;
  pwd : value;
  token : value;
  correlation_id : value
}.

(** ** Module import *)

Module Startup.

(** State of the import: [os.environ] and the keys read from it. *)
Record state : Type := State {
  os_environ : gmap string string;
  reads : list string
}.

Definition Imp (A : Type) : Type := state -> A * state.

Definition ret {A} (a : A) : Imp A := fun s => (a, s).
Definition bind {A B} (m : Imp A) (k : A -> Imp B) : Imp B :=
  fun s => let (a, s') := m s in k a s'.

(** [load_dotenv()]: every variable of the [.env] file that the process
    environment does not define is added to it (no override). *)
Definition load_dotenv (dotenv : gmap string string) : Imp unit :=
  fun s => (tt, State (os_environ s ∪ dotenv) (reads s)).

(** [os.environ.get(key)]: the value, or [None] when the key is absent. *)
Definition os_environ_get (key : string) : Imp value :=
  fun s =>
    (match os_environ s !! key with
     | Some v => VStr v
     | None => VNone
     end,
     State (os_environ s) (reads s ++ [key])).

(** Lines 12 to 17 of [main.py]. *)
Definition module_body (dotenv : gmap string string) : Imp globals :=
  bind (load_dotenv dotenv) (fun _ =>
  bind (os_environ_get "api_key") (fun api_key =>
  bind (os_environ_get "username") (fun username =>
  bind (os_environ_get "pwd") (fun pwd =>
  bind (os_environ_get "token") (fun token =>
  bind (os_environ_get "correlation_id") (fun correlation_id =>
  ret (Globals api_key username pwd token correlation_id))))))).

(** The value an import leaves in a global: the string of the variable in
    the environment completed by the [.env] file, [None] without one. *)
Definition configured (environ dotenv : gmap string string) (key : string)
  : value :=
  match (environ ∪ dotenv) !! key with
  | Some v => VStr v
  | None => VNone
  end.

End Startup.

(** ** The tools *)

(** State threaded through a tool invocation. *)
Record world {Ext : Type} : Type := World {
  w_ext : Ext;                  (* the broker, the network, the clock *)
  w_next : nat;                 (* identity of the next object allocated *)
  w_trace : list event;         (* external events so far, oldest first *)
  w_log : list log_record;      (* records handed to the logger *)
  w_globals : globals           (* the module-level names *)
}.
Arguments world : clear implicits.
Arguments World {Ext} _ _ _ _ _.

Section Server.

Context {Ext : Type}.

(** The external libraries: the answer to a call and the external state
    after it. *)
Variable sdk : call -> Ext -> outcome value * Ext.

Definition M (A : Type) : Type := world Ext -> outcome A * world Ext.

Definition ret {A} (a : A) : M A := fun w => (Returned a, w).

Definition raise {A} (e : exn) : M A := fun w => (Raised e, w).

Definition bind {A B} (m : M A) (k : A -> M B) : M B :=
  fun w =>
    match m w with
    | (Returned a, w') => k a w'
    | (Raised e, w') => (Raised e, w')
    end.

(** [try: body / except Exception as e: handler]: only an instance of
    [Exception] is caught. *)
Definition try_except {A} (body : M A) (handler : exn -> M A) : M A :=
  fun w =>
    match body w with
    | (Returned a, w') => (Returned a, w')
    | (Raised e, w') =>
        if exn_is_Exception e then handler e w' else (Raised e, w')
    end.

Notation "'do' x <- m ; k" := (bind m (fun x => k))
  (at level 10, x name, m at level 100, k at level 200).
Notation "'run' m ; k" := (bind m (fun _ => k))
  (at level 10, m at level 100, k at level 200).

Definition lift {A} (o : outcome A) : M A := fun w => (o, w).

(** Reading a module-level name. *)
Definition global (name : globals -> value) : M value :=
  fun w => (Returned (name (w_globals w)), w).

(** Allocation of a new object. *)
Definition alloc : M nat :=
  fun w =>
    (Returned (w_next w),
     World (w_ext w) (S (w_next w)) (w_trace w) (w_log w) (w_globals w)).

(** A call into the external libraries. *)
Definition invoke (c : call) : M value :=
  fun w =>
    let (r, x) := sdk c (w_ext w) in
    (r, World x (w_next w) (w_trace w ++ [Call c]) (w_log w) (w_globals w)).

(** [SmartConnect(key)] and [pyotp.TOTP(s)]: a new object, then its
    [__init__]. *)
Definition new_SmartConnect (key : value) : M nat :=
  do self <- alloc;
  run invoke (SmartConnect self key);
  ret self.

Definition new_TOTP (s : value) : M nat :=
  do self <- alloc;
  run invoke (TOTP self s);
  ret self.

(** The world after the logger has received [rs]. *)
Definition logged (w : world Ext) (rs : list log_record) : world Ext :=
  World (w_ext w) (w_next w) (w_trace w) (w_log w ++ rs) (w_globals w).

Definition emit (r : log_record) : M unit :=
  fun w => (Returned tt, logged w [r]).

Definition logger_error (m : log_msg) : M unit := emit (LogError m None).

(** [logger.exception(msg)] inside the handler of [e]. *)
Definition logger_exception (msg : string) (e : exn) : M unit :=
  emit (LogError (MsgStr msg) (Some e)).

Definition get_smart_api_session : M nat :=
  do key <- global api_key;
  do smartApi <- new_SmartConnect key;
  try_except
    (do seed <- global token;
     do otp <- new_TOTP seed;
     do totp <- invoke (TOTP_now otp);
     do user <- global username;
     do password <- global pwd;
     do data <- invoke (generateSession smartApi user password totp);
     do status <- lift (py_getitem data "status");
     if py_eq_bool status false then
       run logger_error (MsgVal data);
       raise (Exception "Failed to authenticate with SmartAPI")
     else ret smartApi)
    (fun e =>
       run logger_error (MsgStr ("Authentication failed: " +:+ exn_str e));
       raise e).

Definition get_proftfolio : M value :=
  try_except
    (do smartApi <- get_smart_api_session;
     do allholding <- invoke (holding smartApi);
     ret allholding)
    (fun e =>
       run logger_exception ("Failed to get portfolio: " +:+ exn_str e) e;
       raise e).

Definition queryParams (start_time end_time symboltoken interval : value)
  : value :=
  VDict (dict_display
    [("exchange", VStr "NSE");
     ("symboltoken", symboltoken);
     ("interval", interval);
     ("fromdate", start_time);
     ("todate", end_time)]).

(** An optional parameter left out by the caller is [None] here and takes
    the default of the signature. *)
Definition get_candle_data (start_time end_time : value)
    (symboltoken interval : option value) : M value :=
  let symboltoken := default (VStr "3045") symboltoken in
  let interval := default (VStr "ONE_MINUTE") interval in
  try_except
    (do smartApi <- get_smart_api_session;
     do response <-
       invoke (getCandleData smartApi
                 (queryParams start_time end_time symboltoken interval));
     ret response)
    (fun e =>
       run logger_exception ("Historic Api failed: " +:+ exn_str e) e;
       ret VNone).

Definition orderParams
    (symbol symboltoken transactiontype quantity ordertype producttype
       price : value) : value :=
  VDict (dict_display
    [("variety", VStr "NORMAL");
     ("tradingsymbol", symbol);
     ("symboltoken", symboltoken);
     ("transactiontype", transactiontype);
     ("exchange", VStr "NSE");
     ("ordertype", ordertype);
     ("producttype", producttype);
     ("duration", VStr "DAY");
     ("price", price);
     ("squareoff", VStr "0");
     ("stoploss", VStr "0");
     ("quantity", quantity)]).

Definition place_order (symbol symboltoken transactiontype quantity : value)
    (ordertype producttype price : option value) : M value :=
  let ordertype := default (VStr "LIMIT") ordertype in
  let producttype := default (VStr "DELIVERY") producttype in
  let price := default (VInt 0) price in
  try_except
    (let params :=
       orderParams symbol symboltoken transactiontype quantity ordertype
         producttype price in
     do smartApi <- get_smart_api_session;
     do response <- invoke (placeOrderFullResponse smartApi params);
     ret response)
    (fun e =>
       run logger_exception ("Order placement failed: " +:+ exn_str e) e;
       ret VNone).

Definition cancel_order (order_id : value) (variety : option value)
  : M value :=
  let variety := default (VStr "NORMAL") variety in
  try_except
    (do smartApi <- get_smart_api_session;
     do response <- invoke (cancelOrder smartApi order_id variety);
     ret response)
    (fun e =>
       run logger_exception ("Failed to cancel the order: " +:+ exn_str e) e;
       ret VNone).

Definition get_order_book : M value :=
  try_except
    (do smartApi <- get_smart_api_session;
     do orderbook <- invoke (orderBook smartApi);
     ret orderbook)
    (fun e =>
       run logger_exception ("Fetching order book failed: " +:+ exn_str e) e;
       ret VNone).

(** The resource [greeting://{name}]. *)
Definition get_greeting (name : string) : M string :=
  ret ("Namastae, " +:+ name +:+ "!").

(** The five functions registered with [@mcp.tool()], with the arguments
    of an invocation. *)
Inductive tool : Type :=
| Portfolio
| CandleData (start_time end_time : value) (symboltoken interval : option value)
| PlaceOrder (symbol symboltoken transactiontype quantity : value)
    (ordertype producttype price : option value)
| CancelOrder (order_id : value) (variety : option value)
| OrderBook.

Definition call_tool (t : tool) : M value :=
  match t with
  | Portfolio => get_proftfolio
  | CandleData s e tok i => get_candle_data s e tok i
  | PlaceOrder s tok side q o p pr => place_order s tok side q o p pr
  | CancelOrder i v => cancel_order i v
  | OrderBook => get_order_book
  end.

(** The four tools whose handler ends in [return None]. *)
Definition swallows (t : tool) : bool :=
  match t with
  | Portfolio => false
  | _ => true
  end.

(** What the handler of [t] leaves behind for a caught [e]. *)
Definition handled (t : tool) (e : exn) : outcome value :=
  if swallows t then Returned VNone else Raised e.

(** Lines 32 and 33 of [main.py] on their own: the passcode and the
    authentication call, up to the response [data]. *)
Definition generate_session (smartApi : nat) : M value :=
  do seed <- global token;
  do otp <- new_TOTP seed;
  do totp <- invoke (TOTP_now otp);
  do user <- global username;
  do password <- global pwd;
  invoke (generateSession smartApi user password totp).

(** The call on the session object that each tool makes after the
    handshake. *)
Definition data_call (t : tool) (smartApi : nat) : call :=
  match t with
  | Portfolio => holding smartApi
  | CandleData s e tok i =>
      getCandleData smartApi
        (queryParams s e (default (VStr "3045") tok)
           (default (VStr "ONE_MINUTE") i))
  | PlaceOrder s tok side q o p pr =>
      placeOrderFullResponse smartApi
        (orderParams s tok side q (default (VStr "LIMIT") o)
           (default (VStr "DELIVERY") p) (default (VInt 0) pr))
  | CancelOrder i v => cancelOrder smartApi i (default (VStr "NORMAL") v)
  | OrderBook => orderBook smartApi
  end.

(** The message each tool hands to [logger.exception]. *)
Definition failure_message (t : tool) (e : exn) : string :=
  match t with
  | Portfolio => "Failed to get portfolio: "
  | CandleData _ _ _ _ => "Historic Api failed: "
  | PlaceOrder _ _ _ _ _ _ _ => "Order placement failed: "
  | CancelOrder _ _ => "Failed to cancel the order: "
  | OrderBook => "Fetching order book failed: "
  end +:+ exn_str e.

(** The object a call is made on. *)
Definition call_self (c : call) : nat :=
  match c with
  | SmartConnect self _ | TOTP self _ | TOTP_now self
  | generateSession self _ _ _ | holding self | getCandleData self _
  | placeOrderFullResponse self _ | cancelOrder self _ _ | orderBook self =>
      self
  end.

(** An event that is a call on an object allocated at [n] or later. *)
Definition on_object_from (n : nat) (ev : event) : Prop :=
  match ev with
  | Call c => (n <= call_self c)%nat
  | EnvGet _ => False
  end.

(** The handshake of a session whose object is [n], under the globals [g],
    with the passcode [totp] that [pyotp] produced. *)
Definition handshake (n : nat) (g : globals) (totp : value) : list event :=
  [Call (SmartConnect n (api_key g));
   Call (TOTP (S n) (token g));
   Call (TOTP_now (S n));
   Call (generateSession n (username g) (pwd g) totp)].

(** Two worlds that differ at most in what was logged and traced. *)
Definition agree (w1 w2 : world Ext) : Prop :=
  w_ext w1 = w_ext w2 /\ w_next w1 = w_next w2 /\ w_globals w1 = w_globals w2.

(** A computation that does not look at the log or at the trace. *)
Definition oblivious {A} (m : M A) : Prop :=
  forall w1 w2,
    agree w1 w2 ->
    fst (m w1) = fst (m w2) /\ agree (snd (m w1)) (snd (m w2)).

(** The external calls of an invocation of [t] that nothing cuts short:
    the handshake, then the call of the tool. *)
Definition full_run (t : tool) (n : nat) (g : globals) (totp : value)
  : list event :=
  handshake n g totp ++ [Call (data_call t n)].

(** The world with another value under the module-level name
    [correlation_id]. *)
Definition with_correlation_id (v : value) (w : world Ext) : world Ext :=
  World (w_ext w) (w_next w) (w_trace w) (w_log w)
    (Globals (api_key (w_globals w)) (username (w_globals w))
       (pwd (w_globals w)) (token (w_globals w)) v).

(** A computation that neither reads nor writes [correlation_id]. *)
Definition ignores_correlation_id {A} (m : M A) : Prop :=
  forall v w,
    m (with_correlation_id v w) =
      (fst (m w), with_correlation_id v (snd (m w))).

End Server.

(** ** A scripted SDK for closed instances

    The external state counts the calls answered so far. *)

Module Mock.

Inductive scenario : Type :=
| AllGood          (* every call answers, authentication is accepted *)
| FlagFalse        (* the authentication response has status False *)
| FlagZero         (* the authentication response has status 0 *)
| NoStatus         (* the authentication response has no status key *)
| InitRaises       (* SmartConnect.__init__ raises *)
| TotpRaises       (* TOTP.now raises *)
| SessionRaises    (* generateSession raises *)
| DataRaises       (* the data call of the tool raises *)
| Overloaded       (* as DataRaises, and from the tenth call on
                      generateSession raises too *)
| Interrupted.     (* the data call is interrupted from the keyboard *)

Definition response (status : value) (message : string) : value :=
  VDict (dict_display [("status", status); ("message", VStr message)]).

Definition timeout : exn := Exn "ReadTimeout" "read timed out" true.
Definition bad_seed : exn :=
  Exn "TypeError" "object of type 'NoneType' has no len()" true.
Definition ctrl_c : exn := Exn "KeyboardInterrupt" "" false.

Definition answer (sc : scenario) (c : call) (n : nat) : outcome value :=
  match c with
  | SmartConnect _ _ =>
      match sc with InitRaises => Raised timeout | _ => Returned VNone end
  | TOTP _ _ => Returned VNone
  | TOTP_now _ =>
      match sc with
      | TotpRaises => Raised bad_seed
      | _ => Returned (VStr "492039")
      end
  | generateSession _ _ _ _ =>
      match sc with
      | FlagFalse => Returned (response (VBool false) "Invalid totp")
      | FlagZero => Returned (response (VInt 0) "Invalid totp")
      | NoStatus => Returned (VDict (dict_display [("message", VStr "?")]))
      | SessionRaises => Raised timeout
      | Overloaded =>
          if (n <? 10)%nat then Returned (response (VBool true) "SUCCESS")
          else Raised timeout
      | _ => Returned (response (VBool true) "SUCCESS")
      end
  | _ =>
      match sc with
      | DataRaises | Overloaded => Raised timeout
      | Interrupted => Raised ctrl_c
      | _ => Returned (response (VBool true) "SUCCESS")
      end
  end.

Definition sdk (sc : scenario) (c : call) (n : nat) : outcome value * nat :=
  (answer sc c n, S n).

Definition env : globals :=
  Globals (VStr "key") (VStr "A1234") (VStr "4321") (VStr "JBSWY3DPEHPK3PXP")
    VNone.

(** A world in which seven objects already exist. *)
Definition w0 : world nat := World 0%nat 7%nat [] [] env.

(** The same after twenty calls have been answered. *)
Definition w_late : world nat := World 20%nat 7%nat [] [] env.

(** The world after an accepted handshake from [w0]. *)
Definition w_session : world nat :=
  World 4%nat 9%nat (handshake 7 env (VStr "492039")) [] env.

(** An environment and a [.env] file that leave [token] and
    [correlation_id] undefined. *)
Definition environ : gmap string string :=
  {[ "username" := "A1234"; "pwd" := "4321" ]}.
Definition dotenv : gmap string string :=
  {[ "api_key" := "key"; "username" := "B9999" ]}.

Definition w_unconfigured : world nat :=
  World 0%nat 0%nat [] []
    (Globals (VStr "key") (VStr "A1234") (VStr "4321") VNone VNone).

End Mock.

(** ** A second script: the answer to [generateSession] is given *)

Module Login.

Definition sdk (login : outcome value) (c : call) (n : nat)
  : outcome value * nat :=
  (match c with
   | generateSession _ _ _ _ => login
   | TOTP_now _ => Returned (VStr "492039")
   | _ => Returned VNone
   end,
   S n).

(** The world after the constructor has returned in [Mock.w0]. *)
Definition w_constructed : world nat :=
  World 1%nat 8%nat [Call (SmartConnect 7 (VStr "key"))] [] Mock.env.

(** The world after the whole handshake, with no record logged yet. *)
Definition w_answered : world nat :=
  World 4%nat 9%nat (handshake 7 Mock.env (VStr "492039")) [] Mock.env.

End Login.

(** * Properties *)

Section ServerFacts.

Context {Ext : Type}.
Variable sdk : call -> Ext -> outcome value * Ext.

Implicit Types (w : world Ext) (e : exn) (t : tool).

Local Abbreviation session := (get_smart_api_session sdk).
Local Notation "'do' x <- m ; k" := (bind m (fun x => k))
  (at level 10, x name, m at level 100, k at level 200).

(** Case analysis on the answer of the oracle, wherever one is pending. *)
Ltac oracle :=
  repeat match goal with
    | |- context [sdk ?c ?x] =>
        let E := fresh "E" in destruct (sdk c x) as [[?|?] ?] eqn:E; simpl
    end.

Ltac unfold_monad :=
  cbv [bind try_except ret raise lift global alloc invoke emit
       logger_error logger_exception new_SmartConnect new_TOTP].

(** ** Session establishment *)

(** [get_smart_api_session] is the constructor, then lines 32 and 33, then
    the check of the status flag, the last two under the handler. *)
Lemma get_smart_api_session_eq w :
  session w =
  (do key <- global api_key;
   do smartApi <- new_SmartConnect sdk key;
   try_except
     (do data <- generate_session sdk smartApi;
      do status <- lift (py_getitem data "status");
      if py_eq_bool status false then
        do _ <- logger_error (MsgVal data);
        raise (Exception "Failed to authenticate with SmartAPI")
      else ret smartApi)
     (fun e =>
        do _ <- logger_error (MsgStr ("Authentication failed: " +:+ exn_str e));
        raise e)) w.
Proof.
  unfold get_smart_api_session, generate_session. unfold_monad. simpl.
  oracle; reflexivity.
Qed.

(** First steps of the factored form, once the constructor has answered. *)
Ltac enter_session Hnew :=
  rewrite get_smart_api_session_eq;
  cbv [bind global try_except lift]; rewrite Hnew; cbv beta iota.

(** The constructor allocates the next object and calls its [__init__]
    before anything else. *)
Lemma new_SmartConnect_spec key w :
  exists r x,
    sdk (SmartConnect (w_next w) key) (w_ext w) = (r, x) /\
    new_SmartConnect sdk key w =
      (match r with
       | Returned _ => Returned (w_next w)
       | Raised e => Raised e
       end,
       World x (S (w_next w)) (w_trace w ++ [Call (SmartConnect (w_next w) key)])
         (w_log w) (w_globals w)).
Proof.
  unfold_monad. simpl. oracle; eauto.
Qed.

(** A failure of the constructor is outside the [try] of
    [get_smart_api_session]: it leaves unlogged. *)
Lemma session_constructor_raises w e w1 :
  new_SmartConnect sdk (api_key (w_globals w)) w = (Raised e, w1) ->
  session w = (Raised e, w1).
Proof.
  intros Hnew. enter_session Hnew. reflexivity.
Qed.

(** A response that cannot be subscripted, or has no ["status"], is one
    more exception for the handler. *)
Lemma session_malformed_response w smartApi w1 data w2 e :
  new_SmartConnect sdk (api_key (w_globals w)) w = (Returned smartApi, w1) ->
  generate_session sdk smartApi w1 = (Returned data, w2) ->
  py_getitem data "status" = Raised e ->
  session w =
    (Raised e,
     logged w2 [LogError (MsgStr ("Authentication failed: " +:+ exn_str e)) None]).
Proof.
  intros Hnew Hgen Hget. enter_session Hnew. rewrite Hgen, Hget.
  assert (exn_is_Exception e = true) as ->; [|reflexivity].
  destruct data; simpl in Hget; try (injection Hget as <-; reflexivity).
  destruct (d !! "status"); [discriminate | injection Hget as <-; reflexivity].
Qed.

(** A status equal to [False]: the response is logged, then the raised
    [Exception] is logged by the handler and leaves. *)
Lemma session_status_false w smartApi w1 data w2 status :
  new_SmartConnect sdk (api_key (w_globals w)) w = (Returned smartApi, w1) ->
  generate_session sdk smartApi w1 = (Returned data, w2) ->
  py_getitem data "status" = Returned status ->
  py_eq_bool status false = true ->
  session w =
    (Raised (Exception "Failed to authenticate with SmartAPI"),
     logged w2
       [LogError (MsgVal data) None;
        LogError
          (MsgStr "Authentication failed: Failed to authenticate with SmartAPI")
          None]).
Proof.
  intros Hnew Hgen Hget Hflag. enter_session Hnew.
  rewrite Hgen, Hget, Hflag. unfold_monad. simpl.
  unfold logged. simpl. rewrite <- app_assoc. reflexivity.
Qed.

(** An exception out of lines 32 and 33 is logged by the handler and
    leaves as it came. *)
Lemma session_handshake_raises w smartApi w1 e w2 :
  new_SmartConnect sdk (api_key (w_globals w)) w = (Returned smartApi, w1) ->
  generate_session sdk smartApi w1 = (Raised e, w2) ->
  exn_is_Exception e = true ->
  session w =
    (Raised e,
     logged w2 [LogError (MsgStr ("Authentication failed: " +:+ exn_str e)) None]).
Proof.
  intros Hnew Hgen He. enter_session Hnew. rewrite Hgen, He. reflexivity.
Qed.

(** C4.  Session establishment raises whenever the authentication response
    carries a status equal to [False], after logging the response at level
    ERROR (and the failure once more in the handler); and when the passcode
    generation or the [generateSession] call raises an exception [e] (an
    instance of [Exception], which is what the handler catches), it logs
    the failure and raises that same [e]. *)
Theorem session_failure_logs_and_raises w smartApi w1 :
  new_SmartConnect sdk (api_key (w_globals w)) w = (Returned smartApi, w1) ->
  (forall data w2 status,
      generate_session sdk smartApi w1 = (Returned data, w2) ->
      py_getitem data "status" = Returned status ->
      py_eq_bool status false = true ->
      session w =
        (Raised (Exception "Failed to authenticate with SmartAPI"),
         logged w2
           [LogError (MsgVal data) None;
            LogError
              (MsgStr "Authentication failed: Failed to authenticate with SmartAPI")
              None])) /\
  (forall e w2,
      generate_session sdk smartApi w1 = (Raised e, w2) ->
      exn_is_Exception e = true ->
      session w =
        (Raised e,
         logged w2
           [LogError (MsgStr ("Authentication failed: " +:+ exn_str e)) None])).
Proof.
  intros Hnew. split.
  - intros data w2 status. apply session_status_false, Hnew.
  - intros e w2. apply session_handshake_raises, Hnew.
Qed.

(** The authentication call of [generate_session] is made on the object it
    is given, and is the last event of a run that returns. *)
Lemma generate_session_last smartApi w data w' :
  generate_session sdk smartApi w = (Returned data, w') ->
  exists totp,
    last (w_trace w') =
      Some (Call (generateSession smartApi (username (w_globals w))
                    (pwd (w_globals w)) totp)) /\
    w_globals w' = w_globals w /\ w_log w' = w_log w.
Proof.
  unfold generate_session. unfold_monad. simpl. oracle; intros H;
    try discriminate.
  injection H as <- <-. eexists. simpl. rewrite last_snoc. eauto.
Qed.

(** C5.  When the authentication succeeds (the response carries a status
    that is not equal to [False]), session establishment returns the very
    object it constructed, the one on which [generateSession] was called;
    nothing is logged and nothing happens after that call. *)
Theorem session_returns_the_instance w smartApi w1 data w2 status :
  new_SmartConnect sdk (api_key (w_globals w)) w = (Returned smartApi, w1) ->
  generate_session sdk smartApi w1 = (Returned data, w2) ->
  py_getitem data "status" = Returned status ->
  py_eq_bool status false = false ->
  session w = (Returned smartApi, w2) /\
  smartApi = w_next w /\
  (exists user password totp,
      last (w_trace w2) =
        Some (Call (generateSession smartApi user password totp))) /\
  w_log w2 = w_log w.
Proof.
  intros Hnew Hgen Hget Hflag. split; [|split; [|split]].
  - enter_session Hnew. rewrite Hgen, Hget, Hflag. reflexivity.
  - destruct (new_SmartConnect_spec (api_key (w_globals w)) w)
      as (r & x & _ & Heq).
    rewrite Heq in Hnew. destruct r; [|discriminate].
    injection Hnew as <- _. reflexivity.
  - destruct (generate_session_last _ _ _ _ Hgen) as (totp & Hlast & _).
    eauto.
  - destruct (generate_session_last _ _ _ _ Hgen) as (totp & _ & _ & ->).
    destruct (new_SmartConnect_spec (api_key (w_globals w)) w)
      as (r & x & _ & Heq).
    rewrite Heq in Hnew. injection Hnew as _ <-. reflexivity.
Qed.

(** Session establishment leaves the globals alone, allocates, starts with
    the constructor on the new object, touches no older object, and when
    it returns it has gone through the whole handshake. *)
Lemma session_frame w :
  w_globals (snd (session w)) = w_globals w /\
  (w_next w < w_next (snd (session w)))%nat /\
  exists tr,
    w_trace (snd (session w)) =
      w_trace w ++ Call (SmartConnect (w_next w) (api_key (w_globals w))) :: tr /\
    Forall (on_object_from (w_next w)) tr /\
    forall smartApi,
      fst (session w) = Returned smartApi ->
      smartApi = w_next w /\
      exists totp,
        w_trace (snd (session w)) =
          w_trace w ++ handshake (w_next w) (w_globals w) totp.
Proof.
  unfold get_smart_api_session, handshake. unfold_monad. simpl.
  oracle;
    repeat match goal with
      | |- context [py_getitem ?d ?k] => destruct (py_getitem d k); simpl
      | |- context [py_eq_bool ?v ?b] => destruct (py_eq_bool v b); simpl
      | |- context [exn_is_Exception ?e] => destruct (exn_is_Exception e); simpl
      end;
    (split; [reflexivity|]); (split; [lia|]);
    rewrite <- ?app_assoc; simpl;
    (eexists; split; [reflexivity|]);
    (split; [repeat constructor; simpl; lia|]);
    intros smartApi H; try discriminate;
    injection H as <-; split; [reflexivity|]; eexists; reflexivity.
Qed.

(** ** The tools *)

(** Every tool is the same [try] around the session and one call; the
    tools differ in the call, in the message and in how the handler ends. *)
Lemma call_tool_eq t :
  call_tool sdk t =
  try_except
    (do smartApi <- session;
     do response <- invoke sdk (data_call t smartApi);
     ret response)
    (fun e =>
       do _ <- logger_exception (failure_message t e) e;
       if swallows t then ret VNone else raise e).
Proof. destruct t; reflexivity. Qed.


Lemma tool_session_raises t w e w1 :
  session w = (Raised e, w1) ->
  exn_is_Exception e = true ->
  call_tool sdk t w =
    (handled t e, logged w1 [LogError (MsgStr (failure_message t e)) (Some e)]).
Proof.
  intros Hs He. rewrite call_tool_eq. cbv [try_except bind].
  rewrite Hs. cbv beta iota. rewrite He. unfold handled.
  destruct (swallows t); reflexivity.
Qed.

Lemma tool_data_call_raises t w smartApi w1 e w2 :
  session w = (Returned smartApi, w1) ->
  invoke sdk (data_call t smartApi) w1 = (Raised e, w2) ->
  exn_is_Exception e = true ->
  call_tool sdk t w =
    (handled t e, logged w2 [LogError (MsgStr (failure_message t e)) (Some e)]).
Proof.
  intros Hs Hc He. rewrite call_tool_eq. cbv [try_except bind].
  rewrite Hs. cbv beta iota. rewrite Hc. cbv beta iota. rewrite He.
  unfold handled. destruct (swallows t); reflexivity.
Qed.

(** What is not an instance of [Exception] passes through every handler,
    unlogged. *)
Lemma tool_not_caught t w e w' :
  call_tool sdk t w = (Raised e, w') ->
  swallows t = true ->
  exn_is_Exception e = false.
Proof.
  rewrite call_tool_eq. cbv [try_except bind]. intros H Hsw.
  destruct (session w) as [[smartApi|e1] w1].
  - destruct (invoke sdk (data_call t smartApi) w1) as [[r|e2] w2].
    + discriminate.
    + destruct (exn_is_Exception e2) eqn:He2.
      * rewrite Hsw in H. discriminate.
      * injection H as <- _. exact He2.
  - destruct (exn_is_Exception e1) eqn:He1.
    + rewrite Hsw in H. discriminate.
    + injection H as <- _. exact He1.
Qed.

(** What is raised without being an instance of [Exception] leaves the
    tool as it came, and nothing is logged for it. *)
Lemma tool_passes_base_exception t w smartApi w1 e w2 :
  session w = (Returned smartApi, w1) ->
  invoke sdk (data_call t smartApi) w1 = (Raised e, w2) ->
  exn_is_Exception e = false ->
  call_tool sdk t w = (Raised e, w2).
Proof.
  intros Hs Hc He. rewrite call_tool_eq. cbv [try_except bind].
  rewrite Hs. cbv beta iota. rewrite Hc. cbv beta iota. rewrite He.
  reflexivity.
Qed.

(** C7.  The greeting resource returns ["Namastae, " + name + "!"] for
    every name; it never raises and leaves the world as it found it. *)
Theorem greeting_is_pure (name : string) w :
  get_greeting name w = (Returned ("Namastae, " +:+ name +:+ "!"), w) /\
  get_greeting "World" w = (Returned "Namastae, World!", w).
Proof. split; reflexivity. Qed.

(** C3.  In each of candle retrieval, order placement, order cancellation
    and order book listing, when the SDK call of the tool raises an
    exception [e] (an instance of [Exception]), the tool hands [e] to
    [logger.exception] and returns [None]. *)
Theorem sdk_failure_returns_None w smartApi w1 e w2 :
  session w = (Returned smartApi, w1) ->
  exn_is_Exception e = true ->
  (forall start_time end_time symboltoken interval,
      invoke sdk
        (getCandleData smartApi
           (queryParams start_time end_time
              (default (VStr "3045") symboltoken)
              (default (VStr "ONE_MINUTE") interval))) w1 = (Raised e, w2) ->
      get_candle_data sdk start_time end_time symboltoken interval w =
        (Returned VNone,
         logged w2
           [LogError (MsgStr ("Historic Api failed: " +:+ exn_str e)) (Some e)])) /\
  (forall symbol symboltoken transactiontype quantity ordertype producttype
          price,
      invoke sdk
        (placeOrderFullResponse smartApi
           (orderParams symbol symboltoken transactiontype quantity
              (default (VStr "LIMIT") ordertype)
              (default (VStr "DELIVERY") producttype)
              (default (VInt 0) price))) w1 = (Raised e, w2) ->
      place_order sdk symbol symboltoken transactiontype quantity ordertype
        producttype price w =
        (Returned VNone,
         logged w2
           [LogError (MsgStr ("Order placement failed: " +:+ exn_str e))
              (Some e)])) /\
  (forall order_id variety,
      invoke sdk
        (cancelOrder smartApi order_id (default (VStr "NORMAL") variety)) w1 =
        (Raised e, w2) ->
      cancel_order sdk order_id variety w =
        (Returned VNone,
         logged w2
           [LogError (MsgStr ("Failed to cancel the order: " +:+ exn_str e))
              (Some e)])) /\
  (invoke sdk (orderBook smartApi) w1 = (Raised e, w2) ->
   get_order_book sdk w =
     (Returned VNone,
      logged w2
        [LogError (MsgStr ("Fetching order book failed: " +:+ exn_str e))
           (Some e)])).
Proof.
  intros Hs He. repeat split; intros.
  - eapply (tool_data_call_raises (CandleData _ _ _ _)); eauto.
  - eapply (tool_data_call_raises (PlaceOrder _ _ _ _ _ _ _)); eauto.
  - eapply (tool_data_call_raises (CancelOrder _ _)); eauto.
  - eapply (tool_data_call_raises OrderBook); eauto.
Qed.

(** C2.  Portfolio lookup hands every exception [e] (instance of
    [Exception]) raised by the session establishment or by the holdings
    call to [logger.exception] and raises that same [e]; none of the other
    registered functions lets an exception reach the caller: the four
    other tools return whenever an instance of [Exception] was raised, and
    the greeting resource always returns. *)
Theorem portfolio_reraises w e :
  exn_is_Exception e = true ->
  (forall w1,
      session w = (Raised e, w1) ->
      get_proftfolio sdk w =
        (Raised e,
         logged w1
           [LogError (MsgStr ("Failed to get portfolio: " +:+ exn_str e))
              (Some e)])) /\
  (forall smartApi w1 w2,
      session w = (Returned smartApi, w1) ->
      invoke sdk (holding smartApi) w1 = (Raised e, w2) ->
      get_proftfolio sdk w =
        (Raised e,
         logged w2
           [LogError (MsgStr ("Failed to get portfolio: " +:+ exn_str e))
              (Some e)])) /\
  (forall t w', swallows t = true -> call_tool sdk t w <> (Raised e, w')) /\
  (forall name w', get_greeting (Ext := Ext) name w <> (Raised e, w')).
Proof.
  intros He. repeat split.
  - intros w1 Hs. exact (tool_session_raises Portfolio _ _ _ Hs He).
  - intros smartApi w1 w2 Hs Hc.
    exact (tool_data_call_raises Portfolio _ _ _ _ _ Hs Hc He).
  - intros t w' Hsw H. apply tool_not_caught in H; [congruence | exact Hsw].
  - intros name w'. discriminate.
Qed.

(** C9.  In each of the four tools that swallow, an exception [e] (instance
    of [Exception]) raised by session establishment, the one for a status
    equal to [False] included, is caught by the tool, which returns [None];
    the value returned is the one returned when the data call fails. *)
Theorem session_failure_returns_None t w :
  swallows t = true ->
  (forall e w1,
      session w = (Raised e, w1) ->
      exn_is_Exception e = true ->
      call_tool sdk t w =
        (Returned VNone,
         logged w1 [LogError (MsgStr (failure_message t e)) (Some e)])) /\
  (forall smartApi w1 data w2 status,
      new_SmartConnect sdk (api_key (w_globals w)) w = (Returned smartApi, w1) ->
      generate_session sdk smartApi w1 = (Returned data, w2) ->
      py_getitem data "status" = Returned status ->
      py_eq_bool status false = true ->
      fst (call_tool sdk t w) = Returned VNone) /\
  (forall e w1 w' smartApi' w1' e' w2',
      session w = (Raised e, w1) ->
      exn_is_Exception e = true ->
      session w' = (Returned smartApi', w1') ->
      invoke sdk (data_call t smartApi') w1' = (Raised e', w2') ->
      exn_is_Exception e' = true ->
      fst (call_tool sdk t w) = fst (call_tool sdk t w')).
Proof.
  intros Hsw. repeat split.
  - intros e w1 Hs He. rewrite (tool_session_raises t _ _ _ Hs He).
    unfold handled. rewrite Hsw. reflexivity.
  - intros smartApi w1 data w2 status Hnew Hgen Hget Hflag.
    pose proof (session_status_false _ _ _ _ _ _ Hnew Hgen Hget Hflag)
      as Hfail.
    rewrite (tool_session_raises t _ _ _ Hfail eq_refl).
    unfold handled. rewrite Hsw. reflexivity.
  - intros e w1 w' smartApi' w1' e' w2' Hs He Hs' Hc' He'.
    rewrite (tool_session_raises t _ _ _ Hs He).
    rewrite (tool_data_call_raises t _ _ _ _ _ Hs' Hc' He').
    unfold handled. rewrite Hsw. reflexivity.
Qed.

(** A tool adds to the trace of the session exactly its one call, and
    nothing when the session could not be established. *)
Lemma tool_trace t w :
  w_trace (snd (call_tool sdk t w)) =
    match session w with
    | (Returned smartApi, w1) => w_trace w1 ++ [Call (data_call t smartApi)]
    | (Raised _, w1) => w_trace w1
    end.
Proof.
  rewrite call_tool_eq. cbv [try_except bind].
  destruct (session w) as [[smartApi|e] w1].
  - unfold_monad. simpl. oracle; [reflexivity|].
    destruct (exn_is_Exception _), (swallows t); reflexivity.
  - unfold_monad. simpl.
    destruct (exn_is_Exception _), (swallows t); reflexivity.
Qed.

(** C1.  Whatever the arguments, the request that [place_order] forwards to
    [placeOrderFullResponse] has variety "NORMAL", exchange "NSE", duration
    "DAY", squareoff "0" and stoploss "0", carries [symbol] under
    "tradingsymbol" and the other arguments under their own names, and has
    no further key; it is forwarded once, on the session just established. *)
Theorem place_order_request
    symbol symboltoken transactiontype quantity ordertype producttype price w :
  let request :=
    orderParams symbol symboltoken transactiontype quantity
      (default (VStr "LIMIT") ordertype)
      (default (VStr "DELIVERY") producttype)
      (default (VInt 0) price) in
  (exists d,
      request = VDict d /\
      d !! "variety" = Some (VStr "NORMAL") /\
      d !! "exchange" = Some (VStr "NSE") /\
      d !! "duration" = Some (VStr "DAY") /\
      d !! "squareoff" = Some (VStr "0") /\
      d !! "stoploss" = Some (VStr "0") /\
      d !! "tradingsymbol" = Some symbol /\
      d !! "symboltoken" = Some symboltoken /\
      d !! "transactiontype" = Some transactiontype /\
      d !! "quantity" = Some quantity /\
      d !! "ordertype" = Some (default (VStr "LIMIT") ordertype) /\
      d !! "producttype" = Some (default (VStr "DELIVERY") producttype) /\
      d !! "price" = Some (default (VInt 0) price) /\
      size d = 12%nat) /\
  (forall smartApi w1,
      session w = (Returned smartApi, w1) ->
      w_trace
        (snd (place_order sdk symbol symboltoken transactiontype quantity
                ordertype producttype price w)) =
        w_trace w1 ++ [Call (placeOrderFullResponse smartApi request)]).
Proof.
  intros request. split.
  - eexists. split; [reflexivity|]. repeat split; reflexivity.
  - intros smartApi w1 Hs.
    pose proof (tool_trace
      (PlaceOrder symbol symboltoken transactiontype quantity ordertype
         producttype price) w) as H.
    rewrite Hs in H. exact H.
Qed.

(** C6.  For every [start_time] and [end_time], [get_candle_data] called
    without its optional arguments forwards to [getCandleData] the query
    with exchange "NSE", symboltoken "3045", interval "ONE_MINUTE" and the
    two times, as given, under "fromdate" and "todate"; no value of the
    times stops the call from being made. *)
Theorem candle_default_query start_time end_time w :
  let query :=
    queryParams start_time end_time (VStr "3045") (VStr "ONE_MINUTE") in
  (exists d,
      query = VDict d /\
      d !! "exchange" = Some (VStr "NSE") /\
      d !! "symboltoken" = Some (VStr "3045") /\
      d !! "interval" = Some (VStr "ONE_MINUTE") /\
      d !! "fromdate" = Some start_time /\
      d !! "todate" = Some end_time /\
      size d = 5%nat) /\
  (forall smartApi w1,
      session w = (Returned smartApi, w1) ->
      w_trace (snd (get_candle_data sdk start_time end_time None None w)) =
        w_trace w1 ++ [Call (getCandleData smartApi query)]).
Proof.
  intros query. split.
  - eexists. split; [reflexivity|]. repeat split; reflexivity.
  - intros smartApi w1 Hs.
    pose proof (tool_trace (CandleData start_time end_time None None) w) as H.
    rewrite Hs in H. exact H.
Qed.

(** ** No state is kept between invocations *)

Lemma agree_refl w : agree w w.
Proof. repeat split. Qed.

Lemma oblivious_ret {A} (a : A) : oblivious (Ext := Ext) (ret a).
Proof. intros w1 w2 H. split; [reflexivity | exact H]. Qed.

Lemma oblivious_raise {A} e : oblivious (Ext := Ext) (raise (A := A) e).
Proof. intros w1 w2 H. split; [reflexivity | exact H]. Qed.

Lemma oblivious_lift {A} (o : outcome A) : oblivious (Ext := Ext) (lift o).
Proof. intros w1 w2 H. split; [reflexivity | exact H]. Qed.

Lemma oblivious_global name : oblivious (Ext := Ext) (global name).
Proof.
  intros w1 w2 H. split; [|exact H].
  destruct H as (_ & _ & Hg). simpl. rewrite Hg. reflexivity.
Qed.

Lemma oblivious_alloc : oblivious (Ext := Ext) alloc.
Proof.
  intros w1 w2 (Hx & Hn & Hg). simpl. rewrite Hn. repeat split; assumption.
Qed.

Lemma oblivious_invoke c : oblivious (invoke sdk c).
Proof.
  intros w1 w2 (Hx & Hn & Hg). unfold invoke. rewrite Hx.
  destruct (sdk c (w_ext w2)) as [r x]. repeat split; assumption.
Qed.

Lemma oblivious_emit r : oblivious (Ext := Ext) (emit r).
Proof. intros w1 w2 (Hx & Hn & Hg). repeat split; assumption. Qed.

Lemma oblivious_bind {A B} (m : @M Ext A) (k : A -> @M Ext B) :
  oblivious m -> (forall a, oblivious (k a)) -> oblivious (bind m k).
Proof.
  intros Hm Hk w1 w2 H. unfold bind. destruct (Hm _ _ H) as [Hr Hw].
  destruct (m w1) as [[a1|e1] w1'], (m w2) as [[a2|e2] w2']; simpl in *;
    try discriminate.
  - injection Hr as <-. apply Hk, Hw.
  - injection Hr as <-. split; [reflexivity | exact Hw].
Qed.

Lemma oblivious_try_except {A} (body : @M Ext A) (handler : exn -> @M Ext A) :
  oblivious body -> (forall e, oblivious (handler e)) ->
  oblivious (try_except body handler).
Proof.
  intros Hm Hk w1 w2 H. unfold try_except. destruct (Hm _ _ H) as [Hr Hw].
  destruct (body w1) as [[a1|e1] w1'], (body w2) as [[a2|e2] w2']; simpl in *;
    try discriminate.
  - injection Hr as <-. split; [reflexivity | exact Hw].
  - injection Hr as <-. destruct (exn_is_Exception e1).
    + apply Hk, Hw.
    + split; [reflexivity | exact Hw].
Qed.

Lemma oblivious_if {A} (b : bool) (m1 m2 : @M Ext A) :
  oblivious m1 -> oblivious m2 -> oblivious (if b then m1 else m2).
Proof. destruct b; auto. Qed.

Ltac oblivious :=
  repeat first
    [ apply oblivious_bind; [|intros ?]
    | apply oblivious_try_except; [|intros ?]
    | apply oblivious_if
    | apply oblivious_ret
    | apply oblivious_raise
    | apply oblivious_lift
    | apply oblivious_global
    | apply oblivious_alloc
    | apply oblivious_invoke
    | apply oblivious_emit ].

Lemma oblivious_session : oblivious session.
Proof.
  unfold get_smart_api_session, new_SmartConnect, new_TOTP, logger_error.
  oblivious.
Qed.

Lemma oblivious_tool t : oblivious (call_tool sdk t).
Proof.
  rewrite call_tool_eq. unfold logger_exception.
  apply oblivious_try_except.
  - apply oblivious_bind; [apply oblivious_session | intros smartApi].
    oblivious.
  - intros e. oblivious.
Qed.

(** A tool leaves the globals alone and allocates; its events start with
    the constructor of a new session object and are all calls on objects
    of this invocation. *)
Lemma tool_frame t w :
  w_globals (snd (call_tool sdk t w)) = w_globals w /\
  (w_next w < w_next (snd (call_tool sdk t w)))%nat /\
  exists tr,
    w_trace (snd (call_tool sdk t w)) =
      w_trace w ++ Call (SmartConnect (w_next w) (api_key (w_globals w))) :: tr /\
    Forall (on_object_from (w_next w)) tr.
Proof.
  destruct (session_frame w) as (Hg & Hn & tr & Htr & Hall & Hret).
  pose proof (tool_trace t w) as Ht.
  assert (w_globals (snd (call_tool sdk t w)) = w_globals (snd (session w)) /\
          w_next (snd (call_tool sdk t w)) = w_next (snd (session w)))
    as [Hg' Hn'].
  { rewrite call_tool_eq. cbv [try_except bind].
    destruct (session w) as [[smartApi|e] w1]; unfold_monad; simpl.
    - oracle; [split; reflexivity|].
      destruct (exn_is_Exception _), (swallows t); split; reflexivity.
    - destruct (exn_is_Exception _), (swallows t); split; reflexivity. }
  rewrite Hg', Hn'. split; [exact Hg|]. split; [exact Hn|].
  destruct (session w) as [[smartApi|e] w1] eqn:Hs; simpl in *.
  - destruct (Hret _ eq_refl) as [-> _].
    exists (tr ++ [Call (data_call t (w_next w))]). split.
    + rewrite Ht, Htr, <- app_assoc. reflexivity.
    + apply Forall_app. split; [exact Hall|].
      constructor; [|constructor]. destruct t; simpl; lia.
  - exists tr. split; [rewrite Ht; exact Htr | exact Hall].
Qed.

(** C8.  Every invocation of every tool constructs a new [SmartConnect]
    object before anything else and, unless an exception cuts it short,
    goes through the whole handshake on it; it makes no call on an object
    of an earlier invocation, the next invocation starts on yet another
    object, the module-level names are never written, and the outcome does
    not depend on what earlier invocations logged or called.
    ([get_smart_api_session], which the five tools share, has the same
    properties: [session_frame], [oblivious_session].) *)
Theorem every_invocation_starts_afresh t w :
  let w' := snd (call_tool sdk t w) in
  w_globals w' = w_globals w /\
  (w_next w < w_next w')%nat /\
  (exists tr,
      w_trace w' =
        w_trace w ++
        Call (SmartConnect (w_next w) (api_key (w_globals w))) :: tr /\
      Forall (on_object_from (w_next w)) tr) /\
  (forall smartApi w1,
      session w = (Returned smartApi, w1) ->
      smartApi = w_next w /\
      exists totp,
        w_trace w' =
          w_trace w ++ handshake (w_next w) (w_globals w) totp ++
          [Call (data_call t smartApi)]) /\
  (forall t2,
      exists tr2,
        w_trace (snd (call_tool sdk t2 w')) =
          w_trace w' ++
          Call (SmartConnect (w_next w') (api_key (w_globals w))) :: tr2 /\
        Forall (on_object_from (w_next w')) tr2 /\
        w_next w' <> w_next w) /\
  (forall w2,
      agree w w2 ->
      fst (call_tool sdk t w2) = fst (call_tool sdk t w) /\
      agree (snd (call_tool sdk t w2)) w').
Proof.
  intros w'. subst w'.
  destruct (tool_frame t w) as (Hg & Hn & Htr).
  split; [exact Hg|]. split; [exact Hn|]. split; [exact Htr|].
  split; [|split].
  - intros smartApi w1 Hs.
    destruct (session_frame w) as (_ & _ & tr & _ & _ & Hret).
    rewrite Hs in Hret. destruct (Hret _ eq_refl) as [-> [totp Hw1]].
    split; [reflexivity|]. exists totp.
    pose proof (tool_trace t w) as Ht. rewrite Hs in Ht.
    rewrite Ht. simpl in Hw1. rewrite Hw1, <- app_assoc. reflexivity.
  - intros t2.
    destruct (tool_frame t2 (snd (call_tool sdk t w))) as (_ & _ & tr2 & H2 & Hall).
    exists tr2. rewrite Hg in H2. split; [exact H2|].
    split; [exact Hall | lia].
  - intros w2 Hagree. destruct (oblivious_tool t _ _ Hagree) as [Hr Hw].
    split; [symmetry; exact Hr|].
    destruct Hw as (Hx & Hnx & Hgl). repeat split; symmetry; assumption.
Qed.

(** C10.  The import reads each of the five variables once, with a lookup
    that gives [None] for an absent one, and always completes.  The tools
    read no variable again; [api_key] reaches the SDK as it was read, in
    the constructor call.  When the constructor, the passcode generation
    or the [generateSession] call then raises an exception [e] (instance
    of [Exception]), so does session establishment; and whenever session
    establishment raises [e], portfolio lookup raises [e] and the four
    other tools return [None]. *)
Theorem missing_configuration_surfaces_in_session
    (environ dotenv : gmap string string) :
  let boot := Startup.module_body dotenv (Startup.State environ []) in
  Startup.reads (snd boot) =
    ["api_key"; "username"; "pwd"; "token"; "correlation_id"] /\
  fst boot =
    Globals (Startup.configured environ dotenv "api_key")
      (Startup.configured environ dotenv "username")
      (Startup.configured environ dotenv "pwd")
      (Startup.configured environ dotenv "token")
      (Startup.configured environ dotenv "correlation_id") /\
  (forall key,
      environ !! key = None -> dotenv !! key = None ->
      Startup.configured environ dotenv key = VNone) /\
  (forall t w,
      w_globals w = fst boot ->
      exists tr,
        w_trace (snd (call_tool sdk t w)) =
          w_trace w ++
          Call (SmartConnect (w_next w) (Startup.configured environ dotenv "api_key"))
            :: tr /\
        Forall (on_object_from (w_next w)) tr) /\
  (forall w e w1,
      (new_SmartConnect sdk (api_key (w_globals w)) w = (Raised e, w1) \/
       exists smartApi w0,
         new_SmartConnect sdk (api_key (w_globals w)) w =
           (Returned smartApi, w0) /\
         generate_session sdk smartApi w0 = (Raised e, w1)) ->
      exn_is_Exception e = true ->
      fst (session w) = Raised e) /\
  (forall w e,
      fst (session w) = Raised e ->
      exn_is_Exception e = true ->
      fst (get_proftfolio sdk w) = Raised e /\
      forall t, swallows t = true -> fst (call_tool sdk t w) = Returned VNone).
Proof.
  intros boot. subst boot. split; [reflexivity|]. split; [reflexivity|].
  split; [|split; [|split]].
  - intros key He Hd. unfold Startup.configured.
    assert ((environ ∪ dotenv) !! key = None) as ->; [|reflexivity].
    apply lookup_union_None. split; assumption.
  - intros t w Hw. destruct (tool_frame t w) as (_ & _ & tr & Htr & Hall).
    exists tr. rewrite Hw in Htr. split; [exact Htr | exact Hall].
  - intros w e w1 [Hnew | (smartApi & w0 & Hnew & Hgen)] He.
    + rewrite (session_constructor_raises _ _ _ Hnew). reflexivity.
    + rewrite (session_handshake_raises _ _ _ _ _ Hnew Hgen He). reflexivity.
  - intros w e Hs He.
    destruct (session w) as [r w2] eqn:Hsw. simpl in Hs. subst r. split.
    + change (get_proftfolio sdk w) with (call_tool sdk Portfolio w).
      rewrite (tool_session_raises Portfolio _ _ _ Hsw He). reflexivity.
    + intros t Hsw'. rewrite (tool_session_raises t _ _ _ Hsw He).
      unfold handled. rewrite Hsw'. reflexivity.
Qed.

(** ** The shape of a run *)

(** Candidates for the passcode, the number of calls made and the records
    logged; whichever fits the branch at hand closes it. *)
Ltac fit_shape :=
  (exists VNone, 1%nat + exists VNone, 2%nat + exists VNone, 3%nat
   + (eexists; exists 4%nat));
  (exists [] + eexists (cons _ nil) + eexists (cons _ (cons _ nil)));
  (split; [simpl; rewrite <- ?app_assoc; reflexivity|]);
  (split; [simpl; rewrite <- ?app_assoc, ?app_nil_r; reflexivity|]);
  (split; [lia|]); (split; [simpl; lia|]);
  first [ split; [reflexivity|]; split; reflexivity
        | intros; congruence
        | intros; reflexivity ].

(** What session establishment calls and logs: an initial segment of the
    handshake, the whole of it when it returns, and at most two records,
    none when it returns or when what leaves it is no [Exception]. *)
Lemma session_shape w :
  exists totp k rs,
    w_trace (snd (session w)) =
      w_trace w ++ take k (handshake (w_next w) (w_globals w) totp) /\
    w_log (snd (session w)) = w_log w ++ rs /\
    (1 <= k <= 4)%nat /\ (length rs <= 2)%nat /\
    match fst (session w) with
    | Returned smartApi => smartApi = w_next w /\ k = 4%nat /\ rs = []
    | Raised e => exn_is_Exception e = false -> rs = []
    end.
Proof.
  unfold get_smart_api_session, handshake. unfold_monad. simpl.
  oracle;
    repeat match goal with
      | |- context [py_getitem ?d ?k] =>
          let E := fresh "E" in destruct (py_getitem d k) eqn:E; simpl
      | |- context [py_eq_bool ?v ?b] => destruct (py_eq_bool v b); simpl
      | |- context [exn_is_Exception ?e] =>
          let E := fresh "E" in destruct (exn_is_Exception e) eqn:E; simpl
      end;
    solve [fit_shape].
Qed.

(** The same for a tool: an initial segment of [full_run], the whole of
    it exactly when the session was established, and at most three
    records. *)
Lemma tool_shape t w :
  exists totp k rs,
    w_trace (snd (call_tool sdk t w)) =
      w_trace w ++ take k (full_run t (w_next w) (w_globals w) totp) /\
    w_log (snd (call_tool sdk t w)) = w_log w ++ rs /\
    (1 <= k <= 5)%nat /\ (length rs <= 3)%nat /\
    match fst (session w) with
    | Returned _ => k = 5%nat
    | Raised _ => (k <= 4)%nat
    end.
Proof.
  destruct (session_shape w) as (totp & k & rs & Htr & Hlog & Hk & Hrs & Hout).
  rewrite call_tool_eq. cbv [try_except bind].
  destruct (session w) as [[smartApi|e] w1]; simpl in *.
  - destruct Hout as (-> & -> & ->). rewrite app_nil_r in Hlog.
    unfold_monad. simpl. oracle.
    + exists totp, 5%nat, []. simpl. rewrite Htr, Hlog, app_nil_r, <- app_assoc.
      repeat split; try lia; reflexivity.
    + destruct (exn_is_Exception _), (swallows t); simpl;
        (exists totp, 5%nat); [eexists [_] | eexists [_] | exists [] | exists []];
        simpl; rewrite Htr, Hlog, <- ?app_assoc, ?app_nil_r;
        repeat split; try lia; reflexivity.
  - assert (take k (full_run t (w_next w) (w_globals w) totp) =
            take k (handshake (w_next w) (w_globals w) totp)) as Htake.
    { unfold full_run. apply take_app_le. simpl. lia. }
    unfold_monad. simpl.
    destruct (exn_is_Exception e), (swallows t); simpl;
      (exists totp, k); [eexists (rs ++ [_]) | eexists (rs ++ [_])
                        | exists rs | exists rs];
      rewrite Htake, Htr, Hlog, ?length_app; simpl;
      rewrite ?app_assoc; repeat split; try lia; reflexivity.
Qed.


(** X2.  Order cancellation forwards the caller's [order_id] and the
    variety (which is "NORMAL" when left out) to [cancelOrder], in that
    order, on the session just established; when the session cannot be
    established no cancellation is sent. *)
Theorem cancel_order_request order_id variety w :
  (forall smartApi w1,
      session w = (Returned smartApi, w1) ->
      w_trace (snd (cancel_order sdk order_id variety w)) =
        w_trace w1 ++
        [Call (cancelOrder smartApi order_id
                 (default (VStr "NORMAL") variety))]) /\
  (forall e w1,
      session w = (Raised e, w1) ->
      w_trace (snd (cancel_order sdk order_id variety w)) = w_trace w1 /\
      forall smartApi id v,
        Call (cancelOrder smartApi id v) ∉
          drop (length (w_trace w))
            (w_trace (snd (cancel_order sdk order_id variety w)))).
Proof.
  pose proof (tool_trace (CancelOrder order_id variety) w) as H. split.
  - intros smartApi w1 Hs. rewrite Hs in H. exact H.
  - intros e w1 Hs. rewrite Hs in H. split; [exact H|].
    intros smartApi id v. simpl in H. rewrite H.
    destruct (session_shape w) as (totp & k & rs & Htr & _ & Hk & _).
    rewrite Hs in Htr. simpl in Htr. rewrite Htr, drop_app_length.
    intros Hin. apply elem_of_take in Hin as (i & Hi & _).
    unfold handshake in Hi.
    destruct i as [|[|[|[|i]]]]; simpl in Hi; discriminate.
Qed.

(** X3.  Candle retrieval forwards whatever [symboltoken] and [interval]
    the caller supplies, unchecked, next to the two times; the exchange
    is "NSE" whatever the arguments, and the query has no other key. *)
Theorem candle_query_passes_arguments
    start_time end_time symboltoken interval w :
  let query := queryParams start_time end_time symboltoken interval in
  (exists d,
      query = VDict d /\
      d !! "exchange" = Some (VStr "NSE") /\
      d !! "symboltoken" = Some symboltoken /\
      d !! "interval" = Some interval /\
      d !! "fromdate" = Some start_time /\
      d !! "todate" = Some end_time /\
      size d = 5%nat) /\
  (forall smartApi w1,
      session w = (Returned smartApi, w1) ->
      w_trace
        (snd (get_candle_data sdk start_time end_time (Some symboltoken)
                (Some interval) w)) =
        w_trace w1 ++ [Call (getCandleData smartApi query)]).
Proof.
  intros query. split.
  - eexists. split; [reflexivity|]. repeat split; reflexivity.
  - intros smartApi w1 Hs.
    pose proof (tool_trace
      (CandleData start_time end_time (Some symboltoken) (Some interval)) w)
      as H.
    rewrite Hs in H. exact H.
Qed.

(** X4.  The constructor is outside the [try] of session establishment:
    when [SmartConnect(api_key)] raises, the exception leaves
    [get_smart_api_session] at once, with nothing logged and no further
    call made; inside a tool it is logged once, by the tool. *)
Theorem constructor_failure_skips_the_session_handler w e w1 :
  new_SmartConnect sdk (api_key (w_globals w)) w = (Raised e, w1) ->
  session w = (Raised e, w1) /\
  w_log w1 = w_log w /\
  w_trace w1 =
    w_trace w ++ [Call (SmartConnect (w_next w) (api_key (w_globals w)))] /\
  (exn_is_Exception e = true ->
   forall t,
     call_tool sdk t w =
       (handled t e,
        logged w1 [LogError (MsgStr (failure_message t e)) (Some e)])).
Proof.
  intros Hnew. pose proof (session_constructor_raises _ _ _ Hnew) as Hs.
  destruct (new_SmartConnect_spec (api_key (w_globals w)) w)
    as (r & x & _ & Heq).
  rewrite Heq in Hnew. injection Hnew as _ <-. simpl.
  repeat split; [exact Hs|].
  intros He t. apply tool_session_raises; assumption.
Qed.

(** X5.  An authentication response without a "status" key makes session
    establishment raise [KeyError('status')], and a response of [None] a
    [TypeError]; both pass through the handler, which logs them. *)
Theorem response_without_status_raises w smartApi w1 data w2 :
  new_SmartConnect sdk (api_key (w_globals w)) w = (Returned smartApi, w1) ->
  generate_session sdk smartApi w1 = (Returned data, w2) ->
  (forall d,
      data = VDict d -> d !! "status" = None ->
      session w =
        (Raised (KeyError "status"),
         logged w2 [LogError (MsgStr "Authentication failed: 'status'") None])) /\
  (data = VNone ->
   session w =
     (Raised (TypeError "'NoneType' object is not subscriptable"),
      logged w2
        [LogError
           (MsgStr
              "Authentication failed: 'NoneType' object is not subscriptable")
           None])).
Proof.
  intros Hnew Hgen. split.
  - intros d -> Hd.
    rewrite (session_malformed_response w smartApi w1 _ w2 (KeyError "status")
               Hnew Hgen); [reflexivity|].
    simpl. rewrite Hd. reflexivity.
  - intros ->.
    rewrite (session_malformed_response w smartApi w1 _ w2
               (TypeError "'NoneType' object is not subscriptable")
               Hnew Hgen); reflexivity.
Qed.

(** Which values compare equal to [False]. *)
Lemma py_eq_bool_false status :
  py_eq_bool status false = true <->
  status = VBool false \/ status = VInt 0 \/
  status = VFloat float_pos_zero \/ status = VFloat float_neg_zero.
Proof.
  split.
  - destruct status as [|[]|n|f| | |]; simpl; try discriminate; intros H.
    + left. reflexivity.
    + right. left. apply Z.eqb_eq in H. subst. reflexivity.
    + apply orb_true_iff in H as [H|H]; apply Z.eqb_eq in H; subst; auto.
  - intros [->|[->|[->| ->]]]; reflexivity.
Qed.

(** X6.  Given a response that carries a status, session establishment
    returns the session exactly when the status is none of [False], [0],
    [0.0] and [-0.0]: a status of [None], or any string, is accepted. *)
Theorem session_accepts_all_but_false w smartApi w1 data w2 status :
  new_SmartConnect sdk (api_key (w_globals w)) w = (Returned smartApi, w1) ->
  generate_session sdk smartApi w1 = (Returned data, w2) ->
  py_getitem data "status" = Returned status ->
  (fst (session w) = Returned smartApi <->
   status <> VBool false /\ status <> VInt 0 /\
   status <> VFloat float_pos_zero /\ status <> VFloat float_neg_zero) /\
  (status = VNone -> session w = (Returned smartApi, w2)) /\
  (forall s, status = VStr s -> session w = (Returned smartApi, w2)).
Proof.
  intros Hnew Hgen Hget.
  assert (forall b, py_eq_bool status false = b ->
            session w =
              if b then
                (Raised (Exception "Failed to authenticate with SmartAPI"),
                 logged w2
                   [LogError (MsgVal data) None;
                    LogError
                      (MsgStr
                         "Authentication failed: Failed to authenticate with SmartAPI")
                      None])
              else (Returned smartApi, w2)) as Hcase.
  { intros [] Hb.
    - apply (session_status_false _ _ _ _ _ _ Hnew Hgen Hget Hb).
    - enter_session Hnew. rewrite Hgen, Hget, Hb. reflexivity. }
  split; [|split].
  - destruct (py_eq_bool status false) eqn:Hb;
      rewrite (Hcase _ eq_refl); simpl.
    + apply py_eq_bool_false in Hb. split; [discriminate|].
      intros (H1 & H2 & H3 & H4). destruct Hb as [?|[?|[?|?]]]; contradiction.
    + split; [|reflexivity]. intros _.
      repeat split; intros ->; discriminate.
  - intros ->. apply (Hcase false). reflexivity.
  - intros s ->. apply (Hcase false). reflexivity.
Qed.


(** X8.  The external calls of an invocation are an initial segment of the
    one fixed sequence constructor, [TOTP], [now], [generateSession], call
    of the tool: nothing is called twice or retried, and the call of the
    tool is made exactly when session establishment returned. *)
Theorem tool_calls_in_order_without_retry t w :
  exists totp k,
    w_trace (snd (call_tool sdk t w)) =
      w_trace w ++ take k (full_run t (w_next w) (w_globals w) totp) /\
    (1 <= k <= 5)%nat /\
    (k = 5%nat <-> exists smartApi, fst (session w) = Returned smartApi).
Proof.
  destruct (tool_shape t w) as (totp & k & rs & Htr & _ & Hk & _ & Hout).
  exists totp, k. split; [exact Htr|]. split; [exact Hk|].
  destruct (fst (session w)) as [smartApi|e]; split.
  - intros _. exists smartApi. reflexivity.
  - intros _. exact Hout.
  - intros ->. lia.
  - intros [smartApi H]. discriminate.
Qed.

(** X11.  A refused authentication inside a tool leaves three records, in
    this order: the response, the failure logged by session establishment,
    and the failure logged by the tool. *)
Theorem refused_session_is_logged_three_times
    t w smartApi w1 data w2 status :
  new_SmartConnect sdk (api_key (w_globals w)) w = (Returned smartApi, w1) ->
  generate_session sdk smartApi w1 = (Returned data, w2) ->
  py_getitem data "status" = Returned status ->
  py_eq_bool status false = true ->
  let e := Exception "Failed to authenticate with SmartAPI" in
  call_tool sdk t w =
    (handled t e,
     logged w2
       [LogError (MsgVal data) None;
        LogError
          (MsgStr
             "Authentication failed: Failed to authenticate with SmartAPI")
          None;
        LogError (MsgStr (failure_message t e)) (Some e)]).
Proof.
  intros Hnew Hgen Hget Hflag e.
  pose proof (session_status_false _ _ _ _ _ _ Hnew Hgen Hget Hflag) as Hs.
  rewrite (tool_session_raises t _ _ _ Hs eq_refl).
  unfold logged. simpl. rewrite <- app_assoc. reflexivity.
Qed.

(** ** The unused variable *)

Lemma icid_ret {A} (a : A) : ignores_correlation_id (Ext := Ext) (ret a).
Proof. intros v w. reflexivity. Qed.

Lemma icid_raise {A} e : ignores_correlation_id (Ext := Ext) (raise (A := A) e).
Proof. intros v w. reflexivity. Qed.

Lemma icid_lift {A} (o : outcome A) :
  ignores_correlation_id (Ext := Ext) (lift o).
Proof. intros v w. reflexivity. Qed.

Lemma icid_alloc : ignores_correlation_id (Ext := Ext) alloc.
Proof. intros v w. reflexivity. Qed.

Lemma icid_emit r : ignores_correlation_id (Ext := Ext) (emit r).
Proof. intros v w. reflexivity. Qed.

Lemma icid_invoke c : ignores_correlation_id (invoke sdk c).
Proof.
  intros v w. unfold invoke. simpl. destruct (sdk c (w_ext w)). reflexivity.
Qed.

(** Reading a name is harmless as long as the name is another one. *)
Lemma icid_global name :
  (forall a u p s v, name (Globals a u p s v) = name (Globals a u p s VNone)) ->
  ignores_correlation_id (Ext := Ext) (global name).
Proof.
  intros Hname v w. unfold global, with_correlation_id. simpl.
  destruct (w_globals w) as [a u p s c]. simpl.
  rewrite (Hname a u p s v), (Hname a u p s c). reflexivity.
Qed.

Lemma icid_bind {A B} (m : @M Ext A) (k : A -> @M Ext B) :
  ignores_correlation_id m -> (forall a, ignores_correlation_id (k a)) ->
  ignores_correlation_id (bind m k).
Proof.
  intros Hm Hk v w. unfold bind. rewrite Hm.
  destruct (m w) as [[a|e] w']; simpl; [apply Hk | reflexivity].
Qed.

Lemma icid_try_except {A} (body : @M Ext A) (handler : exn -> @M Ext A) :
  ignores_correlation_id body -> (forall e, ignores_correlation_id (handler e)) ->
  ignores_correlation_id (try_except body handler).
Proof.
  intros Hm Hk v w. unfold try_except. rewrite Hm.
  destruct (body w) as [[a|e] w']; simpl; [reflexivity|].
  destruct (exn_is_Exception e); [apply Hk | reflexivity].
Qed.

Lemma icid_if {A} (b : bool) (m1 m2 : @M Ext A) :
  ignores_correlation_id m1 -> ignores_correlation_id m2 ->
  ignores_correlation_id (if b then m1 else m2).
Proof. destruct b; auto. Qed.

Ltac icid :=
  repeat first
    [ apply icid_bind; [|intros ?]
    | apply icid_try_except; [|intros ?]
    | apply icid_if
    | apply icid_ret
    | apply icid_raise
    | apply icid_lift
    | apply icid_global; reflexivity
    | apply icid_alloc
    | apply icid_invoke
    | apply icid_emit ].

Lemma icid_session : ignores_correlation_id session.
Proof.
  unfold get_smart_api_session, new_SmartConnect, new_TOTP, logger_error.
  icid.
Qed.

(** X9.  [correlation_id] is read at import and never used: whatever its
    value, every tool returns or raises the same, makes the same calls
    and logs the same records. *)
Theorem correlation_id_is_never_used t v w :
  call_tool sdk t (with_correlation_id v w) =
    (fst (call_tool sdk t w),
     with_correlation_id v (snd (call_tool sdk t w))).
Proof.
  revert v w. change (ignores_correlation_id (call_tool sdk t)).
  rewrite call_tool_eq. unfold logger_exception.
  apply icid_try_except.
  - apply icid_bind; [apply icid_session | intros smartApi]. icid.
  - intros e. icid.
Qed.

(** X10.  What is raised without being an instance of [Exception]
    ([KeyboardInterrupt], [SystemExit]) is caught nowhere: out of the
    handshake it leaves session establishment, and out of the session or
    out of the call of the tool it leaves every tool, the four that
    otherwise return [None] included, each time with nothing logged. *)
Theorem base_exception_is_not_handled w e :
  exn_is_Exception e = false ->
  (forall smartApi w1 w2,
      new_SmartConnect sdk (api_key (w_globals w)) w = (Returned smartApi, w1) ->
      generate_session sdk smartApi w1 = (Raised e, w2) ->
      session w = (Raised e, w2)) /\
  (forall t w1,
      session w = (Raised e, w1) ->
      call_tool sdk t w = (Raised e, w1)) /\
  (forall t smartApi w1 w2,
      session w = (Returned smartApi, w1) ->
      invoke sdk (data_call t smartApi) w1 = (Raised e, w2) ->
      call_tool sdk t w = (Raised e, w2)).
Proof.
  intros He. split; [|split].
  - intros smartApi w1 w2 Hnew Hgen. enter_session Hnew.
    rewrite Hgen, He. reflexivity.
  - intros t w1 Hs. rewrite call_tool_eq. cbv [try_except bind].
    rewrite Hs. cbv beta iota. rewrite He. reflexivity.
  - intros t smartApi w1 w2 Hs Hc.
    exact (tool_passes_base_exception _ _ _ _ _ _ Hs Hc He).
Qed.

End ServerFacts.

(** * Closed instances on the scripted SDK *)

Import Mock.

(** An authentication answered with status False, and a passcode that
    cannot be generated. *)
Lemma session_failure_logs_and_raises_witness :
  (fst (get_smart_api_session (sdk FlagFalse) w0) =
     Raised (Exception "Failed to authenticate with SmartAPI") /\
   w_log (snd (get_smart_api_session (sdk FlagFalse) w0)) =
     [LogError (MsgVal (response (VBool false) "Invalid totp")) None;
      LogError
        (MsgStr "Authentication failed: Failed to authenticate with SmartAPI")
        None]) /\
  (fst (get_smart_api_session (sdk TotpRaises) w0) = Raised bad_seed /\
   w_log (snd (get_smart_api_session (sdk TotpRaises) w0)) =
     [LogError
        (MsgStr "Authentication failed: object of type 'NoneType' has no len()")
        None]).
Proof.
  split.
  - rewrite (proj1 (session_failure_logs_and_raises (sdk FlagFalse) w0 7%nat
                      _ eq_refl)
               (response (VBool false) "Invalid totp") _ (VBool false)
               eq_refl eq_refl eq_refl).
    split; reflexivity.
  - rewrite (proj2 (session_failure_logs_and_raises (sdk TotpRaises) w0 7%nat
                      _ eq_refl)
               bad_seed _ eq_refl eq_refl).
    split; reflexivity.
Defined.

(** An accepted authentication: the object returned is the seventh, the one
    just constructed. *)
Lemma session_returns_the_instance_witness :
  get_smart_api_session (sdk AllGood) w0 =
    (Returned 7%nat,
     World 4%nat 9%nat (handshake 7 env (VStr "492039")) [] env).
Proof.
  exact (proj1 (session_returns_the_instance (sdk AllGood) w0 7%nat _
                  (response (VBool true) "SUCCESS") _ (VBool true)
                  eq_refl eq_refl eq_refl eq_refl)).
Defined.

(** A market order without the optional arguments. *)
Lemma place_order_request_witness :
  w_trace
    (snd (place_order (sdk AllGood) (VStr "INFY") (VStr "1594") (VStr "BUY")
            (VInt 10) None None None w0)) =
  handshake 7 env (VStr "492039") ++
  [Call (placeOrderFullResponse 7
           (orderParams (VStr "INFY") (VStr "1594") (VStr "BUY") (VInt 10)
              (VStr "LIMIT") (VStr "DELIVERY") (VInt 0)))].
Proof.
  exact (proj2 (place_order_request (sdk AllGood) (VStr "INFY") (VStr "1594")
                  (VStr "BUY") (VInt 10) None None None w0)
           7%nat w_session eq_refl).
Defined.

(** Two times that are not even dates. *)
Lemma candle_default_query_witness :
  w_trace
    (snd (get_candle_data (sdk AllGood) (VStr "yesterday") VNone None None w0)) =
  handshake 7 env (VStr "492039") ++
  [Call (getCandleData 7
           (queryParams (VStr "yesterday") VNone (VStr "3045")
              (VStr "ONE_MINUTE")))].
Proof.
  exact (proj2 (candle_default_query (sdk AllGood) (VStr "yesterday") VNone w0)
           7%nat w_session eq_refl).
Defined.

(** The data call times out in each of the four tools. *)
Lemma sdk_failure_returns_None_witness :
  fst (get_candle_data (sdk DataRaises) (VStr "a") (VStr "b") None None w0) =
    Returned VNone /\
  fst (place_order (sdk DataRaises) (VStr "INFY") (VStr "1594") (VStr "BUY")
         (VInt 10) None None None w0) = Returned VNone /\
  fst (cancel_order (sdk DataRaises) (VStr "42") None w0) = Returned VNone /\
  get_order_book (sdk DataRaises) w0 =
    (Returned VNone,
     World 5%nat 9%nat
       (handshake 7 env (VStr "492039") ++ [Call (orderBook 7)])
       [LogError (MsgStr "Fetching order book failed: read timed out")
          (Some timeout)]
       env).
Proof.
  split; [|split; [|split]].
  - rewrite (proj1 (sdk_failure_returns_None (sdk DataRaises) w0 7%nat
                      w_session timeout _ eq_refl eq_refl)
               (VStr "a") (VStr "b") None None eq_refl).
    reflexivity.
  - rewrite (proj1 (proj2 (sdk_failure_returns_None (sdk DataRaises) w0 7%nat
                             w_session timeout _ eq_refl eq_refl))
               (VStr "INFY") (VStr "1594") (VStr "BUY") (VInt 10) None None
               None eq_refl).
    reflexivity.
  - rewrite (proj1 (proj2 (proj2 (sdk_failure_returns_None (sdk DataRaises) w0
                                    7%nat w_session timeout _ eq_refl eq_refl)))
               (VStr "42") None eq_refl).
    reflexivity.
  - exact (proj2 (proj2 (proj2 (sdk_failure_returns_None (sdk DataRaises) w0
                                  7%nat w_session timeout _ eq_refl eq_refl)))
             eq_refl).
Defined.

(** The holdings call times out, or the authentication is refused. *)
Lemma portfolio_reraises_witness :
  get_proftfolio (sdk DataRaises) w0 =
    (Raised timeout,
     World 5%nat 9%nat
       (handshake 7 env (VStr "492039") ++ [Call (holding 7)])
       [LogError (MsgStr "Failed to get portfolio: read timed out")
          (Some timeout)]
       env) /\
  fst (get_proftfolio (sdk FlagFalse) w0) =
    Raised (Exception "Failed to authenticate with SmartAPI") /\
  fst (get_order_book (sdk DataRaises) w0) <> Raised timeout.
Proof.
  split; [|split].
  - exact (proj1 (proj2 (portfolio_reraises (sdk DataRaises) w0 timeout
                           eq_refl))
             7%nat w_session _ eq_refl eq_refl).
  - rewrite (proj1 (portfolio_reraises (sdk FlagFalse) w0
                      (Exception "Failed to authenticate with SmartAPI")
                      eq_refl)
               _ eq_refl).
    reflexivity.
  - intros H.
    apply (proj1 (proj2 (proj2 (portfolio_reraises (sdk DataRaises) w0 timeout
                                  eq_refl)))
             OrderBook (snd (get_order_book (sdk DataRaises) w0)) eq_refl).
    rewrite <- H. reflexivity.
Defined.

(** A refused authentication and a failed data call are the same [None]. *)
Lemma session_failure_returns_None_witness :
  fst (get_order_book (sdk SessionRaises) w0) = Returned VNone /\
  fst (cancel_order (sdk FlagZero) (VStr "42") None w0) = Returned VNone /\
  fst (get_order_book (sdk Overloaded) w_late) =
    fst (get_order_book (sdk Overloaded) w0).
Proof.
  split; [|split].
  - change (get_order_book (sdk SessionRaises) w0)
      with (call_tool (sdk SessionRaises) OrderBook w0).
    rewrite (proj1 (session_failure_returns_None (sdk SessionRaises) OrderBook
                      w0 eq_refl)
               timeout _ eq_refl eq_refl).
    reflexivity.
  - exact (proj1 (proj2 (session_failure_returns_None (sdk FlagZero)
                           (CancelOrder (VStr "42") None) w0 eq_refl))
             7%nat _ (response (VInt 0) "Invalid totp") _ (VInt 0)
             eq_refl eq_refl eq_refl eq_refl).
  - exact (proj2 (proj2 (session_failure_returns_None (sdk Overloaded)
                           OrderBook w_late eq_refl))
             timeout _ w0 7%nat w_session timeout _
             eq_refl eq_refl eq_refl eq_refl eq_refl).
Defined.

(** Two invocations in a row: each starts with its own [SmartConnect]. *)
Lemma every_invocation_starts_afresh_witness :
  (exists totp,
      w_trace (snd (call_tool (sdk AllGood) Portfolio w0)) =
        handshake 7 env totp ++ [Call (holding 7)]) /\
  (exists tr2,
      w_trace
        (snd (call_tool (sdk AllGood) OrderBook
                (snd (call_tool (sdk AllGood) Portfolio w0)))) =
        w_trace (snd (call_tool (sdk AllGood) Portfolio w0)) ++
        Call (SmartConnect 9 (VStr "key")) :: tr2).
Proof.
  pose proof (every_invocation_starts_afresh (sdk AllGood) Portfolio w0) as H.
  cbv zeta in H. destruct H as (_ & _ & _ & Hfull & Hnext & _). split.
  - destruct (Hfull 7%nat w_session eq_refl) as [_ [totp Htr]].
    exists totp. exact Htr.
  - destruct (Hnext OrderBook) as (tr2 & Htr2 & _). exists tr2. exact Htr2.
Defined.

(** Neither [token] nor [correlation_id] is configured: the import
    completes, and the failure shows in the tools. *)
Lemma missing_configuration_surfaces_in_session_witness :
  fst (Startup.module_body dotenv (Startup.State environ [])) =
    Globals (VStr "key") (VStr "A1234") (VStr "4321") VNone VNone /\
  fst (get_proftfolio (sdk TotpRaises) w_unconfigured) = Raised bad_seed /\
  fst (get_order_book (sdk TotpRaises) w_unconfigured) = Returned VNone.
Proof.
  pose proof (missing_configuration_surfaces_in_session (sdk TotpRaises)
                environ dotenv) as H.
  cbv zeta in H. destruct H as (_ & Hg & _ & _ & Hraise & Hpolicy).
  assert (fst (get_smart_api_session (sdk TotpRaises) w_unconfigured) =
            Raised bad_seed) as Hs.
  { apply (Hraise w_unconfigured bad_seed
             (snd (generate_session (sdk TotpRaises) 0%nat
                     (snd (new_SmartConnect (sdk TotpRaises) (VStr "key")
                             w_unconfigured))))); [|reflexivity].
    right. eexists _, _. split; reflexivity. }
  destruct (Hpolicy w_unconfigured bad_seed Hs eq_refl) as [Hp Ht].
  split; [|split].
  - rewrite Hg. reflexivity.
  - exact Hp.
  - exact (Ht OrderBook eq_refl).
Defined.

(** ** Further runs of the scripted SDK *)

Example dict_display_last_wins :
  dict_display [("a", VInt 1); ("a", VInt 2)] !! "a" = Some (VInt 2).
Proof. reflexivity. Qed.

Example status_zero_is_a_failure : py_eq_bool (VInt 0) false = true.
Proof. reflexivity. Qed.

Example status_None_is_not_a_failure : py_eq_bool VNone false = false.
Proof. reflexivity. Qed.

Example portfolio_returns_the_holdings :
  get_proftfolio (sdk AllGood) w0 =
    (Returned (response (VBool true) "SUCCESS"),
     World 5%nat 9%nat (handshake 7 env (VStr "492039") ++ [Call (holding 7)])
       [] env).
Proof. reflexivity. Qed.

Example response_without_status_is_a_KeyError :
  fst (get_smart_api_session (sdk NoStatus) w0) = Raised (KeyError "status") /\
  fst (get_order_book (sdk NoStatus) w0) = Returned VNone.
Proof. split; reflexivity. Qed.

Example constructor_failure_is_not_logged_by_the_session :
  get_smart_api_session (sdk InitRaises) w0 =
    (Raised timeout,
     World 1%nat 8%nat [Call (SmartConnect 7 (VStr "key"))] [] env).
Proof. reflexivity. Qed.

Example keyboard_interrupt_leaves_the_tool :
  get_order_book (sdk Interrupted) w0 =
    (Raised ctrl_c,
     World 5%nat 9%nat
       (handshake 7 env (VStr "492039") ++ [Call (orderBook 7)]) [] env).
Proof. reflexivity. Qed.

(** ** Instances for the properties beyond the contract *)


Lemma cancel_order_request_witness :
  w_trace (snd (cancel_order (sdk AllGood) (VStr "42") (Some (VStr "AMO")) w0)) =
    handshake 7 env (VStr "492039") ++
    [Call (cancelOrder 7 (VStr "42") (VStr "AMO"))] /\
  w_trace (snd (cancel_order (sdk SessionRaises) (VStr "42") None w0)) =
    handshake 7 env (VStr "492039").
Proof.
  split.
  - exact (proj1 (cancel_order_request (sdk AllGood) (VStr "42")
                    (Some (VStr "AMO")) w0)
             7%nat w_session eq_refl).
  - exact (proj1 (proj2 (cancel_order_request (sdk SessionRaises) (VStr "42")
                           None w0)
                    timeout
                    (snd (get_smart_api_session (sdk SessionRaises) w0))
                    eq_refl)).
Defined.

(** An interval that the broker does not know. *)
Lemma candle_query_passes_arguments_witness :
  w_trace
    (snd (get_candle_data (sdk AllGood) (VStr "2024-01-01 09:15")
            (VStr "2024-01-01 15:30") (Some (VStr "1594"))
            (Some (VStr "TWO_MINUTE")) w0)) =
  handshake 7 env (VStr "492039") ++
  [Call (getCandleData 7
           (queryParams (VStr "2024-01-01 09:15") (VStr "2024-01-01 15:30")
              (VStr "1594") (VStr "TWO_MINUTE")))].
Proof.
  exact (proj2 (candle_query_passes_arguments (sdk AllGood)
                  (VStr "2024-01-01 09:15") (VStr "2024-01-01 15:30")
                  (VStr "1594") (VStr "TWO_MINUTE") w0)
           7%nat w_session eq_refl).
Defined.

Lemma constructor_failure_skips_the_session_handler_witness :
  get_smart_api_session (sdk InitRaises) w0 =
    (Raised timeout,
     World 1%nat 8%nat [Call (SmartConnect 7 (VStr "key"))] [] env) /\
  w_log (snd (call_tool (sdk InitRaises) OrderBook w0)) =
    [LogError (MsgStr "Fetching order book failed: read timed out")
       (Some timeout)].
Proof.
  pose proof (constructor_failure_skips_the_session_handler (sdk InitRaises)
                w0 timeout
                (World 1%nat 8%nat [Call (SmartConnect 7 (VStr "key"))] [] env)
                eq_refl) as (Hs & _ & _ & Ht).
  split; [exact Hs|]. rewrite (Ht eq_refl OrderBook). reflexivity.
Defined.

Lemma response_without_status_raises_witness :
  fst (get_smart_api_session (sdk NoStatus) w0) = Raised (KeyError "status") /\
  fst (get_smart_api_session (Login.sdk (Returned VNone)) w0) =
    Raised (TypeError "'NoneType' object is not subscriptable").
Proof.
  split.
  - rewrite (proj1 (response_without_status_raises (sdk NoStatus) w0 7%nat
                      Login.w_constructed _ Login.w_answered
                      eq_refl eq_refl)
               _ eq_refl eq_refl).
    reflexivity.
  - rewrite (proj2 (response_without_status_raises
                      (Login.sdk (Returned VNone)) w0 7%nat
                      Login.w_constructed VNone Login.w_answered
                      eq_refl eq_refl)
               eq_refl).
    reflexivity.
Defined.

(** A status of [None] is accepted. *)
Lemma session_accepts_all_but_false_witness :
  get_smart_api_session (Login.sdk (Returned (response VNone "?"))) w0 =
    (Returned 7%nat, Login.w_answered).
Proof.
  exact (proj1 (proj2 (session_accepts_all_but_false
                         (Login.sdk (Returned (response VNone "?"))) w0 7%nat
                         Login.w_constructed (response VNone "?")
                         Login.w_answered VNone eq_refl eq_refl eq_refl))
           eq_refl).
Defined.

Lemma base_exception_is_not_handled_witness :
  get_smart_api_session (Login.sdk (Raised ctrl_c)) w0 =
    (Raised ctrl_c, Login.w_answered) /\
  call_tool (Login.sdk (Raised ctrl_c)) OrderBook w0 =
    (Raised ctrl_c, Login.w_answered) /\
  fst (call_tool (sdk Interrupted) OrderBook w0) = Raised ctrl_c.
Proof.
  pose proof (base_exception_is_not_handled (Login.sdk (Raised ctrl_c)) w0
                ctrl_c eq_refl) as (Hs & Ht & _).
  pose proof (Hs 7%nat Login.w_constructed Login.w_answered eq_refl eq_refl)
    as Hsession.
  split; [exact Hsession|]. split; [exact (Ht OrderBook _ Hsession)|].
  rewrite (proj2 (proj2 (base_exception_is_not_handled (sdk Interrupted) w0
                           ctrl_c eq_refl))
             OrderBook 7%nat w_session _ eq_refl eq_refl).
  reflexivity.
Defined.

Lemma refused_session_is_logged_three_times_witness :
  w_log (snd (call_tool (sdk FlagFalse) OrderBook w0)) =
    [LogError (MsgVal (response (VBool false) "Invalid totp")) None;
     LogError
       (MsgStr "Authentication failed: Failed to authenticate with SmartAPI")
       None;
     LogError
       (MsgStr
          "Fetching order book failed: Failed to authenticate with SmartAPI")
       (Some (Exception "Failed to authenticate with SmartAPI"))].
Proof.
  rewrite (refused_session_is_logged_three_times (sdk FlagFalse) OrderBook w0
             7%nat Login.w_constructed (response (VBool false) "Invalid totp")
             Login.w_answered (VBool false) eq_refl eq_refl eq_refl eq_refl).
  reflexivity.
Defined.
